(** * SMCALC: the KPI scoring engine of [SMCALC.py]

    A shallow embedding of the seven KPI normalizers and of the weighted
    aggregator, with the properties of the scoring engine proved on it.

    Numbers.  The script computes with binary64 floats.  The main model
    replaces them by the rationals [Q] with exact arithmetic: every literal
    denotes its decimal value ([1.2] is [12/10]) and no operation rounds.
    Results are compared with [==] ([Qeq]) unless two sides are built by
    the very same operations.  The properties stated on this model concern
    branches, bounds, order and failure, and values that the script
    computes by the very expression stated.  Rounding can change the last
    digits of an interpolated score or of a weighted sum; such values are
    computed on the binary64 transcription [Binary64].

    Absent values.  Python's [None] is [None : option Q]; a number [x] is
    [Some x].

    Exceptions.  [/] raises [ZeroDivisionError] on a zero divisor and [*]
    raises [TypeError] on [None]; a computation is a [result], and
    [try ... except ZeroDivisionError] is [try_except_ZeroDivisionError].

    Rounding.  [Binary64] transcribes the penalty normalizers and the
    aggregator with IEEE 754 binary64 operations and literals, so that
    their values can be computed as the script computes them. *)

From Stdlib Require Import QArith Lqa.
From Stdlib Require Import Floats.PrimFloat.
From stdpp Require Import base option strings gmap.

Open Scope Q_scope.

(** ** Python semantics used by the engine *)

Inductive exn : Type :=
  | ZeroDivisionError
  | TypeError.

Inductive result (A : Type) : Type :=
  | Ret (a : A)
  | Raise (e : exn).

Arguments Ret {A} a.
Arguments Raise {A} e.

#[global] Instance result_ret : MRet result := @Ret.

#[global] Instance result_bind : MBind result :=
  fun A B (k : A -> result B) (m : result A) =>
    match m with
    | Ret a => k a
    | Raise e => Raise e
    end.

(** [try: body except ZeroDivisionError: handler]. *)
Definition try_except_ZeroDivisionError {A : Type}
    (body handler : result A) : result A :=
  match body with
  | Raise ZeroDivisionError => handler
  | other => other
  end.

(** [a < b] and [a > b] on numbers, as booleans. *)
Definition Qltb (a b : Q) : bool := negb (Qle_bool b a).
Definition Qgtb (a b : Q) : bool := Qltb b a.

(** [a / b]: true division, which raises on a zero divisor. *)
Definition truediv (a b : Q) : result Q :=
  if Qeq_bool b 0 then Raise ZeroDivisionError else Ret (a / b).

(** [v * w] where [v] may be [None]. *)
Definition py_mul (v : option Q) (w : Q) : result Q :=
  match v with
  | Some x => Ret (x * w)
  | None => Raise TypeError
  end.

(** The builtins [min(a, b)] and [max(a, b)]: the first argument is kept
    unless the second is strictly smaller (resp. strictly larger). *)
Definition py_min (a b : Q) : Q := if Qltb b a then b else a.
Definition py_max (a b : Q) : Q := if Qgtb b a then b else a.

(** [d.get(key, default)]. *)
Definition get (d : gmap string (option Q)) (key : string)
    (dflt : option Q) : option Q :=
  default dflt (d !! key).

(** ** The KPI normalizers *)

(** The [try] block of [calculate_sales_performance]. *)
Definition calculate_sales_performance_try
    (actual_sales forecast_sales : Q) : result Q :=
  r ← truediv actual_sales forecast_sales;
  mret (py_min r 1.0).

Definition calculate_sales_performance
    (actual_sales forecast_sales : option Q) : result Q :=
  match forecast_sales, actual_sales with
  | Some forecast, Some actual =>
      if Qeq_bool forecast 0 then Ret 0.0
      else try_except_ZeroDivisionError
             (calculate_sales_performance_try actual forecast) (Ret 0.0)
  | _, _ => Ret 0.0
  end.

(** The [try] block of [calculate_wastage_performance]. *)
Definition calculate_wastage_performance_try
    (actual_wastage actual_sales wastage_target_amount : Q) : result Q :=
  wastage_percentage ←
    (if negb (Qeq_bool actual_sales 0)
     then truediv actual_wastage actual_sales else Ret 0);
  if Qle_bool actual_wastage wastage_target_amount then Ret 1.0
  else if Qeq_bool wastage_target_amount 0 then Ret 0.0
  else if Qle_bool (wastage_target_amount * 1.2) actual_wastage then Ret 0.0
  else
    let denominator := wastage_target_amount * 20 in
    if Qeq_bool denominator 0 then Ret 0.0
    else
      f ← truediv 100 denominator;
      let accepted := 1.0 - ((actual_wastage - wastage_target_amount) * f) in
      mret (py_max 0.0 (py_min accepted 1.0)).

Definition calculate_wastage_performance
    (actual_wastage actual_sales wastage_target_amount : option Q)
    : result Q :=
  match actual_wastage, actual_sales, wastage_target_amount with
  | Some wastage, Some sales, Some target =>
      try_except_ZeroDivisionError
        (calculate_wastage_performance_try wastage sales target) (Ret 0.0)
  | _, _, _ => Ret 0.0
  end.

(** The [try] block of [calculate_opex_performance]. *)
Definition calculate_opex_performance_try
    (actual_opex target_opex actual_sales : Q) : result Q :=
  if Qeq_bool actual_sales 0 then Ret 0.0
  else
    opex_target_percentage ← truediv target_opex actual_sales;
    actual_opex_percentage ← truediv actual_opex actual_sales;
    if Qle_bool actual_opex_percentage opex_target_percentage then Ret 1.0
    else if Qeq_bool opex_target_percentage 0 then Ret 0.0
    else if Qle_bool (opex_target_percentage * 1.2) actual_opex_percentage
    then Ret 0.0
    else
      let denominator := opex_target_percentage * 20 in
      if Qeq_bool denominator 0 then Ret 0.0
      else
        f ← truediv 100 denominator;
        let accepted :=
          1.0 - ((actual_opex_percentage - opex_target_percentage) * f) in
        mret (py_max 0.0 (py_min accepted 1.0)).

Definition calculate_opex_performance
    (actual_opex target_opex actual_sales : option Q) : result Q :=
  match actual_opex, target_opex, actual_sales with
  | Some opex, Some target, Some sales =>
      try_except_ZeroDivisionError
        (calculate_opex_performance_try opex target sales) (Ret 0.0)
  | _, _, _ => Ret 0.0
  end.

(** The [try] block of [calculate_turnover_performance]. *)
Definition calculate_turnover_performance_try
    (actual_separations target_separations : Q) : result Q :=
  if Qle_bool actual_separations target_separations then Ret 1.0
  else if Qeq_bool target_separations 0 then Ret 0.0
  else if Qle_bool (target_separations * 1.2) actual_separations then Ret 0.0
  else
    ratio ← truediv actual_separations target_separations;
    let performance := 1.0 - (ratio - 1.0) * 5.0 in
    mret (py_max 0.0 (py_min performance 1.0)).

Definition calculate_turnover_performance
    (actual_separations target_separations : option Q) : result Q :=
  match actual_separations, target_separations with
  | Some actual, Some target =>
      try_except_ZeroDivisionError
        (calculate_turnover_performance_try actual target) (Ret 0.0)
  | _, _ => Ret 0.0
  end.

(** The [try] block of [calculate_mystery_shopper_performance]. *)
Definition calculate_mystery_shopper_performance_try
    (actual_value : Q) : result Q :=
  r ← truediv actual_value 100.0;
  mret (py_min r 1.0).

Definition calculate_mystery_shopper_performance
    (actual_value : option Q) : result Q :=
  match actual_value with
  | None => Ret 0.0
  | Some actual =>
      try_except_ZeroDivisionError
        (calculate_mystery_shopper_performance_try actual) (Ret 0.0)
  end.

(** The [try] block of [calculate_excellence_performance]. *)
Definition calculate_excellence_performance_try
    (actual_value : Q) : result Q :=
  r ← truediv actual_value 100.0;
  mret (py_min r 1.0).

Definition calculate_excellence_performance
    (actual_value : option Q) : result Q :=
  match actual_value with
  | None => Ret 0.0
  | Some actual =>
      try_except_ZeroDivisionError
        (calculate_excellence_performance_try actual) (Ret 0.0)
  end.

(** The [try] block of [calculate_behavioural_performance]. *)
Definition calculate_behavioural_performance_try
    (actual_value : Q) : result Q :=
  r ← truediv actual_value 5.0;
  mret (py_min r 1.0).

Definition calculate_behavioural_performance
    (actual_value : option Q) : result Q :=
  match actual_value with
  | None => Ret 0.0
  | Some actual =>
      try_except_ZeroDivisionError
        (calculate_behavioural_performance_try actual) (Ret 0.0)
  end.

(** ** The aggregator *)

Definition calculate_final_performance
    (kpi_results : gmap string (option Q)) : result Q :=
  sales_perf ← py_mul (get kpi_results "Sales" (Some 0)) 0.30;
  wastage_perf ← py_mul (get kpi_results "Wastage" (Some 0)) 0.30;
  opex_perf ← py_mul (get kpi_results "OPEX" (Some 0)) 0.20;
  turnover_perf ← py_mul (get kpi_results "Turnover" (Some 0)) 0.20;
  excellence_perf ←
    py_mul (get kpi_results "Excellence check" (Some 0)) 0.20;
  mystery_shopper_perf ←
    py_mul (get kpi_results "Mystery shopper" (Some 0)) 0.20;
  behavioural_perf ← py_mul (get kpi_results "Behaviour" (Some 0)) 0.10;
  let final_score :=
    ((sales_perf + wastage_perf + opex_perf + turnover_perf) * 0.5)
    + excellence_perf + mystery_shopper_perf + behavioural_perf in
  mret final_score.

(** ** The engine in binary64

    The three penalty normalizers and the arithmetic of the aggregator,
    with IEEE 754 binary64 operations and literals in place of the
    rationals.  The aggregator takes the seven results it reads from the
    mapping. *)
Set Warnings "-inexact-float".

Module Binary64.

#[local] Open Scope float_scope.

(** [a / b] on floats: raises on a zero divisor, of either sign. *)
Definition truediv (a b : float) : result float :=
  if PrimFloat.eqb b 0 then Raise ZeroDivisionError else Ret (a / b).

(** [min(a, b)] and [max(a, b)]. *)
Definition py_min (a b : float) : float := if PrimFloat.ltb b a then b else a.
Definition py_max (a b : float) : float := if PrimFloat.ltb a b then b else a.

Definition calculate_wastage_performance_try
    (actual_wastage actual_sales wastage_target_amount : float)
    : result float :=
  wastage_percentage ←
    (if negb (PrimFloat.eqb actual_sales 0)
     then truediv actual_wastage actual_sales else Ret 0);
  if PrimFloat.leb actual_wastage wastage_target_amount then Ret 1.0
  else if PrimFloat.eqb wastage_target_amount 0 then Ret 0.0
  else if PrimFloat.leb (wastage_target_amount * 1.2) actual_wastage
  then Ret 0.0
  else
    let denominator := wastage_target_amount * 20 in
    if PrimFloat.eqb denominator 0 then Ret 0.0
    else
      f ← truediv 100 denominator;
      let accepted := 1.0 - ((actual_wastage - wastage_target_amount) * f) in
      mret (py_max 0.0 (py_min accepted 1.0)).

Definition calculate_wastage_performance
    (actual_wastage actual_sales wastage_target_amount : option float)
    : result float :=
  match actual_wastage, actual_sales, wastage_target_amount with
  | Some wastage, Some sales, Some target =>
      try_except_ZeroDivisionError
        (calculate_wastage_performance_try wastage sales target) (Ret 0.0)
  | _, _, _ => Ret 0.0
  end.

Definition calculate_opex_performance_try
    (actual_opex target_opex actual_sales : float) : result float :=
  if PrimFloat.eqb actual_sales 0 then Ret 0.0
  else
    opex_target_percentage ← truediv target_opex actual_sales;
    actual_opex_percentage ← truediv actual_opex actual_sales;
    if PrimFloat.leb actual_opex_percentage opex_target_percentage
    then Ret 1.0
    else if PrimFloat.eqb opex_target_percentage 0 then Ret 0.0
    else if PrimFloat.leb (opex_target_percentage * 1.2)
              actual_opex_percentage
    then Ret 0.0
    else
      let denominator := opex_target_percentage * 20 in
      if PrimFloat.eqb denominator 0 then Ret 0.0
      else
        f ← truediv 100 denominator;
        let accepted :=
          1.0 - ((actual_opex_percentage - opex_target_percentage) * f) in
        mret (py_max 0.0 (py_min accepted 1.0)).

Definition calculate_opex_performance
    (actual_opex target_opex actual_sales : option float) : result float :=
  match actual_opex, target_opex, actual_sales with
  | Some opex, Some target, Some sales =>
      try_except_ZeroDivisionError
        (calculate_opex_performance_try opex target sales) (Ret 0.0)
  | _, _, _ => Ret 0.0
  end.

Definition calculate_turnover_performance_try
    (actual_separations target_separations : float) : result float :=
  if PrimFloat.leb actual_separations target_separations then Ret 1.0
  else if PrimFloat.eqb target_separations 0 then Ret 0.0
  else if PrimFloat.leb (target_separations * 1.2) actual_separations
  then Ret 0.0
  else
    ratio ← truediv actual_separations target_separations;
    let performance := 1.0 - (ratio - 1.0) * 5.0 in
    mret (py_max 0.0 (py_min performance 1.0)).

Definition calculate_turnover_performance
    (actual_separations target_separations : option float) : result float :=
  match actual_separations, target_separations with
  | Some actual, Some target =>
      try_except_ZeroDivisionError
        (calculate_turnover_performance_try actual target) (Ret 0.0)
  | _, _ => Ret 0.0
  end.

(** [r] returns a float equal ([==]) to [x]. *)
Definition returns_float (r : result float) (x : float) : bool :=
  match r with
  | Ret v => PrimFloat.eqb v x
  | Raise _ => false
  end.

Definition calculate_final_performance
    (sales wastage opex turnover excellence mystery behaviour : float)
    : float :=
  let sales_perf := sales * 0.30 in
  let wastage_perf := wastage * 0.30 in
  let opex_perf := opex * 0.20 in
  let turnover_perf := turnover * 0.20 in
  let excellence_perf := excellence * 0.20 in
  let mystery_shopper_perf := mystery * 0.20 in
  let behavioural_perf := behaviour * 0.10 in
  ((sales_perf + wastage_perf + opex_perf + turnover_perf) * 0.5)
  + excellence_perf + mystery_shopper_perf + behavioural_perf.

End Binary64.

(** ** What a computation returns *)

(** [returns P r]: the computation [r] returns a value, and it satisfies
    [P].  A computation that raises satisfies no [returns]. *)
Definition returns {A : Type} (P : A -> Prop) (r : result A) : Prop :=
  match r with
  | Ret v => P v
  | Raise _ => False
  end.

(** [r1] and [r2] both return, and the value of [r1] is at least that of
    [r2]. *)
Definition result_ge (r1 r2 : result Q) : Prop :=
  returns (fun v1 => returns (fun v2 => v2 <= v1) r2) r1.

(** The closed interval [[0.0, 1.0]]. *)
Definition unit_interval (v : Q) : Prop := 0 <= v /\ v <= 1.

(** ** The policies in the words of the specification *)

(** "clamped to [[0.0, 1.0]]". *)
Definition clamp01 (x : Q) : Q :=
  if Qltb x 0 then 0 else if Qltb 1 x then 1 else x.

(** Section 4.2, the best / worst / interpolation policy on an amount and
    its target. *)
Definition wastage_policy (actual target : Q) : Q :=
  if Qle_bool actual target then 1.0
  else if Qeq_bool target 0 then 0.0
  else if Qle_bool (target * 1.2) actual then 0.0
  else clamp01 (1.0 - (actual - target) * (100 / (target * 20))).

(** Section 4.2 with its absent inputs. *)
Definition wastage_spec
    (actual_wastage_amount actual_sales_amount wastage_target_amount
       : option Q) : Q :=
  match actual_wastage_amount, actual_sales_amount, wastage_target_amount
  with
  | Some actual, Some _, Some target => wastage_policy actual target
  | _, _, _ => 0.0
  end.

(** Section 4.4 for present inputs. *)
Definition turnover_spec (actual target : Q) : Q :=
  if Qle_bool actual target then 1.0
  else if Qeq_bool target 0 then 0.0
  else if Qle_bool (target * 1.2) actual then 0.0
  else clamp01 (1.0 - ((actual / target) - 1.0) * 5.0).

(** Section 4.8: the weighted sum of seven results. *)
Definition aggregate_spec
    (sales wastage opex turnover excellence mystery behaviour : Q) : Q :=
  ((sales * 0.30 + wastage * 0.30 + opex * 0.20 + turnover * 0.20) * 0.5)
  + excellence * 0.20 + mystery * 0.20 + behaviour * 0.10.

(** Section 4.8: "any missing or absent KPI result contributes [0.0]". *)
Definition contribution (d : gmap string (option Q)) (name : string) : Q :=
  match d !! name with
  | Some (Some x) => x
  | Some None => 0
  | None => 0
  end.

(** Section 4.8 on a mapping from KPI names to results. *)
Definition final_performance_spec (d : gmap string (option Q)) : Q :=
  aggregate_spec
    (contribution d "Sales") (contribution d "Wastage")
    (contribution d "OPEX") (contribution d "Turnover")
    (contribution d "Excellence check") (contribution d "Mystery shopper")
    (contribution d "Behaviour").

(** The mapping built by the caller: one entry per KPI. *)
Definition kpi_results_of
    (sales wastage opex turnover mystery excellence behaviour : option Q)
    : gmap string (option Q) :=
  <["Behaviour" := behaviour]>
  (<["Excellence check" := excellence]>
  (<["Mystery shopper" := mystery]>
  (<["Turnover" := turnover]>
  (<["OPEX" := opex]>
  (<["Wastage" := wastage]>
  (<["Sales" := sales]> ∅)))))).

(** ** The caller: one table row per KPI, then the final score

    The script draws one row per KPI, in the order of its [kpis] dictionary.
    A row stores the two numbers entered ([st.number_input]) in the session
    state, computes the KPI's performance into [perf_results], and the
    Wastage and OPEX rows read the Sales actual back from the session state.
    The widgets are left out: a row is the pair of values they returned. *)

(** The names of [kpis], in its order. *)
Definition kpi_names : list string :=
  ["Sales"; "Wastage"; "OPEX"; "Turnover"; "Mystery shopper";
   "Excellence check"; "Behaviour"].

(** Truth value of a number or [None], and [v != 0]. *)
Definition truthy (v : option Q) : bool :=
  match v with
  | Some x => negb (Qeq_bool x 0)
  | None => false
  end.

Definition not_zero (v : option Q) : bool :=
  match v with
  | Some x => negb (Qeq_bool x 0)
  | None => true
  end.

(** [x * v] where [v] may be [None]. *)
Definition py_times (x : Q) (v : option Q) : result Q :=
  match v with
  | Some y => Ret (x * y)
  | None => Raise TypeError
  end.

(** [try: body except Exception: handler], for a body that computes a
    number. *)
Definition try_except_Exception (body : result Q) (handler : Q) : Q :=
  match body with
  | Ret v => v
  | Raise _ => handler
  end.

(** The [try] block of a row: the dispatch on the KPI name. *)
Definition kpi_row_try (kpi_name : string) (target_input actual_input : Q)
    (sales_actual : option Q) : result Q :=
  if String.eqb kpi_name "Sales" then
    calculate_sales_performance (Some actual_input) (Some target_input)
  else if String.eqb kpi_name "Wastage" then
    wastage_amount ←
      (if truthy sales_actual && not_zero sales_actual
       then py_times actual_input sales_actual else Ret 0);
    target_amount ←
      (if truthy sales_actual && not_zero sales_actual
       then py_times target_input sales_actual else Ret 0);
    calculate_wastage_performance
      (Some wastage_amount) sales_actual (Some target_amount)
  else if String.eqb kpi_name "OPEX" then
    calculate_opex_performance
      (Some actual_input) (Some target_input) sales_actual
  else if String.eqb kpi_name "Turnover" then
    calculate_turnover_performance (Some actual_input) (Some target_input)
  else if String.eqb kpi_name "Mystery shopper" then
    calculate_mystery_shopper_performance (Some actual_input)
  else if String.eqb kpi_name "Excellence check" then
    calculate_excellence_performance (Some actual_input)
  else if String.eqb kpi_name "Behaviour" then
    calculate_behavioural_performance (Some actual_input)
  else if truthy (Some target_input) && not_zero (Some target_input) then
    truediv actual_input target_input
  else Ret 0.0.

(** What a row stores in [perf_results]: [None] when an input is [None],
    and [0.0] when the [try] block raises. *)
Definition kpi_row (kpi_name : string)
    (target_input actual_input sales_actual : option Q) : option Q :=
  match target_input, actual_input with
  | Some target, Some actual =>
      Some (try_except_Exception
              (kpi_row_try kpi_name target actual sales_actual) 0.0)
  | _, _ => None
  end.

(** A row of the table: the KPI and the two values entered for it. *)
Record row : Type := Row {
  row_kpi : string;
  row_target : option Q;
  row_actual : option Q
}.

(** The loop over the rows.  [sales_actual] is
    [kpi_inputs["Sales"]['actual']] of the session state: the Sales row
    overwrites it before any performance is computed from it. *)
Fixpoint score_rows (rows : list row) (sales_actual : option Q)
    (perf_results : gmap string (option Q)) : gmap string (option Q) :=
  match rows with
  | [] => perf_results
  | r :: rest =>
      let sales_actual' :=
        if String.eqb (row_kpi r) "Sales" then row_actual r
        else sales_actual in
      score_rows rest sales_actual'
        (<[row_kpi r :=
             kpi_row (row_kpi r) (row_target r) (row_actual r)
               sales_actual']> perf_results)
  end.

(** [final_perf_score]: the aggregator on the [perf_results] of the loop,
    which starts from the empty dictionary. *)
Definition final_perf_score (rows : list row) (sales_actual : option Q)
    : result Q :=
  calculate_final_performance (score_rows rows sales_actual ∅).

(** The colour of the final card: green from 80% upward, red below. *)
Definition card_color (score : Q) : string :=
  if Qle_bool 0.8 score then "#e6f7e6" else "#ffebeb".

(** ** Mappings the aggregator accepts *)

(** No [None] under the seven names. *)
Definition results_present (d : gmap string (option Q)) : Prop :=
  forall k, k ∈ kpi_names -> d !! k <> Some None.

(** A row in which two non-negative numbers were entered. *)
Definition nonnegative_row (r : row) : Prop :=
  exists t a : Q,
    row_target r = Some t /\ row_actual r = Some a /\ 0 <= t /\ 0 <= a.

(** Every result under the seven names is a score in [[0.0, 1.0]]. *)
Definition scores_in_range (d : gmap string (option Q)) : Prop :=
  forall k, k ∈ kpi_names ->
    d !! k <> Some None /\ 0 <= contribution d k <= 1.

(** ** Comparing two computations *)

(** [r1] and [r2] both return, and [r1] returns at most what [r2] does. *)
Definition result_le (r1 r2 : result Q) : Prop :=
  returns (fun v1 => returns (fun v2 => v1 <= v2) r2) r1.

(** The table as the script draws it: the seven KPIs in order. *)
Definition kpi_table
    (sales wastage opex turnover mystery excellence behaviour
       : option Q * option Q) : list row :=
  [Row "Sales" sales.1 sales.2;
   Row "Wastage" wastage.1 wastage.2;
   Row "OPEX" opex.1 opex.2;
   Row "Turnover" turnover.1 turnover.2;
   Row "Mystery shopper" mystery.1 mystery.2;
   Row "Excellence check" excellence.1 excellence.2;
   Row "Behaviour" behaviour.1 behaviour.2].

(** ** Booleans and propositions *)

Lemma Qle_bool_false (x y : Q) : Qle_bool x y = false <-> y < x.
Proof.
  split; intros H.
  - apply Qnot_le_lt. intros Hle. apply Qle_bool_iff in Hle. congruence.
  - destruct (Qle_bool x y) eqn:E; [|reflexivity].
    apply Qle_bool_iff in E. lra.
Qed.

Lemma Qeq_bool_false (x y : Q) : Qeq_bool x y = false <-> ~ x == y.
Proof.
  split; intros H.
  - now apply Qeq_bool_neq.
  - destruct (Qeq_bool x y) eqn:E; [|reflexivity].
    apply Qeq_bool_iff in E. contradiction.
Qed.

Lemma Qltb_true (x y : Q) : Qltb x y = true <-> x < y.
Proof. unfold Qltb. rewrite negb_true_iff. apply Qle_bool_false. Qed.

Lemma Qltb_false (x y : Q) : Qltb x y = false <-> y <= x.
Proof. unfold Qltb. rewrite negb_false_iff. apply Qle_bool_iff. Qed.

(** Turn every boolean test in the context into its proposition. *)
Ltac qprop :=
  repeat match goal with
  | H : Qle_bool _ _ = true |- _ => apply Qle_bool_iff in H
  | H : Qle_bool _ _ = false |- _ => apply Qle_bool_false in H
  | H : Qeq_bool _ _ = true |- _ => apply Qeq_bool_iff in H
  | H : Qeq_bool _ _ = false |- _ => apply Qeq_bool_false in H
  | H : Qltb _ _ = true |- _ => apply Qltb_true in H
  | H : Qltb _ _ = false |- _ => apply Qltb_false in H
  end.

(** Split on the first boolean test the goal branches on. *)
Ltac qcase :=
  match goal with
  | |- context [if Qle_bool ?a ?b then _ else _] =>
      destruct (Qle_bool a b) eqn:?
  | |- context [if Qeq_bool ?a ?b then _ else _] =>
      destruct (Qeq_bool a b) eqn:?
  | |- context [if Qltb ?a ?b then _ else _] =>
      destruct (Qltb a b) eqn:?
  | |- context [if negb (Qeq_bool ?a ?b) then _ else _] =>
      destruct (Qeq_bool a b) eqn:?
  end.

Ltac qcases := repeat (qcase; cbn [negb]); qprop.

Lemma py_min_le (x b : Q) : py_min x b <= b.
Proof. unfold py_min. qcases; lra. Qed.

Lemma py_min_nonneg (x b : Q) : 0 <= b -> (0 <= py_min x b <-> 0 <= x).
Proof. unfold py_min. intros Hb. qcases; split; intros; lra. Qed.

Lemma py_clamp (x : Q) : py_max 0.0 (py_min x 1.0) == clamp01 x.
Proof.
  unfold py_min. destruct (Qltb 1.0 x) eqn:Hhigh;
    unfold py_max, Qgtb, clamp01; qcases; lra.
Qed.

Lemma clamp01_range (x : Q) : unit_interval (clamp01 x).
Proof. unfold unit_interval, clamp01. qcases; lra. Qed.

Lemma clamp01_mono (x y : Q) : x <= y -> clamp01 x <= clamp01 y.
Proof. unfold clamp01. intros Hxy. qcases; lra. Qed.

Lemma truediv_nonzero (a b : Q) : ~ b == 0 -> truediv a b = Ret (a / b).
Proof.
  intros Hb. unfold truediv. now apply Qeq_bool_false in Hb as ->.
Qed.

(** ** The result monad *)

Lemma returns_impl {A : Type} (P P' : A -> Prop) (r : result A) :
  (forall v, P v -> P' v) -> returns P r -> returns P' r.
Proof. intros HP. destruct r; cbn; auto. Qed.

Lemma returns_Ret {A : Type} (P : A -> Prop) (r : result A) :
  returns P r -> exists v, r = Ret v /\ P v.
Proof. destruct r; cbn; [eauto | tauto]. Qed.

Lemma returns_try_except {A : Type} (P : A -> Prop) (body h : result A) :
  returns P body -> returns P (try_except_ZeroDivisionError body h).
Proof. destruct body; cbn; tauto. Qed.

(** Unfold the monadic plumbing, leaving the arithmetic untouched. *)
Ltac run :=
  cbn [mbind mret result_bind result_ret try_except_ZeroDivisionError
       returns negb].

(** ** The wastage policy *)

Lemma scaled_target_nonzero (t : Q) : ~ t == 0 -> ~ t * 20 == 0.
Proof. intros Ht H. apply Ht. lra. Qed.

(** The sales figure only feeds the unused [wastage_percentage]. *)
Lemma wastage_try_sales (a s t : Q) :
  calculate_wastage_performance_try a s t
  = calculate_wastage_performance_try a 0 t.
Proof.
  unfold calculate_wastage_performance_try.
  destruct (Qeq_bool s 0) eqn:Hs; run.
  - reflexivity.
  - apply Qeq_bool_false in Hs. rewrite (truediv_nonzero a s Hs). reflexivity.
Qed.

Lemma wastage_try_policy (a s t : Q) :
  returns (fun v => v == wastage_policy a t)
    (calculate_wastage_performance_try a s t).
Proof.
  rewrite wastage_try_sales.
  unfold calculate_wastage_performance_try, wastage_policy. run.
  destruct (Qle_bool a t); [run; reflexivity|].
  destruct (Qeq_bool t 0) eqn:Ht; [run; reflexivity|].
  destruct (Qle_bool (t * 1.2) a); [run; reflexivity|].
  apply Qeq_bool_false in Ht.
  pose proof (scaled_target_nonzero t Ht) as Hd.
  rewrite (truediv_nonzero _ _ Hd).
  apply Qeq_bool_false in Hd as ->. run.
  apply py_clamp.
Qed.

Lemma wastage_policy_range (a t : Q) : unit_interval (wastage_policy a t).
Proof.
  unfold wastage_policy.
  destruct (Qle_bool a t); [unfold unit_interval; lra|].
  destruct (Qeq_bool t 0); [unfold unit_interval; lra|].
  destruct (Qle_bool (t * 1.2) a); [unfold unit_interval; lra|].
  apply clamp01_range.
Qed.

Lemma penalty_factor_pos (t : Q) : 0 < t -> 0 < 100 / (t * 20).
Proof.
  intros Ht. unfold Qdiv.
  assert (0 < / (t * 20)) by (apply Qinv_lt_0_compat; lra).
  lra.
Qed.

Lemma wastage_policy_mono (a1 a2 t : Q) :
  0 < t -> a1 <= a2 -> wastage_policy a2 t <= wastage_policy a1 t.
Proof.
  intros Ht Ha.
  destruct (wastage_policy_range a1 t) as [Hlo1 Hhi1].
  destruct (wastage_policy_range a2 t) as [Hlo2 Hhi2].
  revert Hlo1 Hhi1 Hlo2 Hhi2. unfold wastage_policy.
  destruct (Qle_bool a1 t) eqn:H1; [intros; qprop; qcases; lra|].
  destruct (Qle_bool a2 t) eqn:H2; [qprop; lra|].
  destruct (Qeq_bool t 0) eqn:H0; [qprop; lra|].
  destruct (Qle_bool (t * 1.2) a2) eqn:H3; [intros; qcases; lra|].
  destruct (Qle_bool (t * 1.2) a1) eqn:H4; [qprop; lra|].
  intros _ _ _ _. apply clamp01_mono.
  pose proof (penalty_factor_pos t Ht) as Hk.
  assert ((a1 - t) * (100 / (t * 20)) <= (a2 - t) * (100 / (t * 20))).
  { apply Qmult_le_compat_r; lra. }
  lra.
Qed.

(** ** OPEX is the wastage policy on percentages of sales *)

Lemma opex_try_as_wastage_try (a t s : Q) :
  ~ s == 0 ->
  calculate_opex_performance_try a t s
  = calculate_wastage_performance_try (a / s) s (t / s).
Proof.
  intros Hs. rewrite wastage_try_sales.
  unfold calculate_opex_performance_try.
  rewrite !(truediv_nonzero _ s Hs).
  apply Qeq_bool_false in Hs as ->.
  reflexivity.
Qed.

Lemma opex_try_policy (a t s : Q) :
  returns (fun v => v == if Qeq_bool s 0 then 0
                         else wastage_policy (a / s) (t / s))
    (calculate_opex_performance_try a t s).
Proof.
  destruct (Qeq_bool s 0) eqn:Hs.
  - unfold calculate_opex_performance_try. rewrite Hs. run. reflexivity.
  - apply Qeq_bool_false in Hs. rewrite (opex_try_as_wastage_try a t s Hs).
    apply wastage_try_policy.
Qed.

(** ** The turnover policy *)

Lemma turnover_try_spec (a t : Q) :
  returns (fun v => v == turnover_spec a t)
    (calculate_turnover_performance_try a t).
Proof.
  unfold calculate_turnover_performance_try, turnover_spec.
  destruct (Qle_bool a t); [run; reflexivity|].
  destruct (Qeq_bool t 0) eqn:Ht; [run; reflexivity|].
  destruct (Qle_bool (t * 1.2) a); [run; reflexivity|].
  apply Qeq_bool_false in Ht.
  rewrite (truediv_nonzero _ _ Ht). run.
  apply py_clamp.
Qed.

Lemma turnover_spec_range (a t : Q) : unit_interval (turnover_spec a t).
Proof.
  unfold turnover_spec.
  destruct (Qle_bool a t); [unfold unit_interval; lra|].
  destruct (Qeq_bool t 0); [unfold unit_interval; lra|].
  destruct (Qle_bool (t * 1.2) a); [unfold unit_interval; lra|].
  apply clamp01_range.
Qed.

(** ** The ratio normalizers *)

Lemma quotient_sign (a f : Q) : ~ f == 0 -> (0 <= a / f <-> 0 <= a * f).
Proof.
  intros Hf.
  assert (Hq : a * f == (a / f) * (f * f)) by (field; exact Hf).
  assert (Hsq : 0 < f * f) by nra.
  rewrite Hq. split; intros H; nra.
Qed.

Lemma sales_try_value (a f : Q) :
  ~ f == 0 ->
  calculate_sales_performance_try a f = Ret (py_min (a / f) 1.0).
Proof.
  intros Hf. unfold calculate_sales_performance_try.
  now rewrite (truediv_nonzero _ _ Hf).
Qed.

Lemma capped_ratio_range (a d : Q) :
  0 < d ->
  py_min (a / d) 1.0 <= 1 /\ (0 <= py_min (a / d) 1.0 <-> 0 <= a).
Proof.
  intros Hd. split.
  - pose proof (py_min_le (a / d) 1.0). lra.
  - rewrite py_min_nonneg by lra.
    rewrite quotient_sign by lra.
    split; intros H; nra.
Qed.

Lemma result_ge_intro (r1 r2 : result Q) (x1 x2 : Q) :
  returns (fun v => v == x1) r1 ->
  returns (fun v => v == x2) r2 ->
  x2 <= x1 ->
  result_ge r1 r2.
Proof.
  unfold result_ge. destruct r1 as [v1|]; [|contradiction].
  destruct r2 as [v2|]; [|contradiction]. cbn. intros -> ->. tauto.
Qed.

Lemma wastage_performance_policy (a s t : Q) :
  returns (fun v => v == wastage_policy a t)
    (calculate_wastage_performance (Some a) (Some s) (Some t)).
Proof. apply returns_try_except, wastage_try_policy. Qed.

Lemma opex_performance_policy (a t s : Q) :
  ~ s == 0 ->
  returns (fun v => v == wastage_policy (a / s) (t / s))
    (calculate_opex_performance (Some a) (Some t) (Some s)).
Proof.
  intros Hs. apply returns_try_except.
  pose proof (opex_try_policy a t s) as H.
  apply Qeq_bool_false in Hs. now rewrite Hs in H.
Qed.

Lemma turnover_performance_spec (a t : Q) :
  returns (fun v => v == turnover_spec a t)
    (calculate_turnover_performance (Some a) (Some t)).
Proof. apply returns_try_except, turnover_try_spec. Qed.

Lemma sales_performance_value (a f : Q) :
  calculate_sales_performance (Some a) (Some f)
  = Ret (if Qeq_bool f 0 then 0.0 else py_min (a / f) 1.0).
Proof.
  unfold calculate_sales_performance.
  destruct (Qeq_bool f 0) eqn:Hf; [reflexivity|].
  apply Qeq_bool_false in Hf. now rewrite (sales_try_value a f Hf).
Qed.

(** ** The aggregator on mappings *)

Lemma get_present (d : gmap string (option Q)) (k : string)
    (v dflt : option Q) :
  d !! k = Some v -> get d k dflt = v.
Proof. unfold get. now intros ->. Qed.

(** With a number (or nothing) under each of the seven names, the
    aggregator returns the weighted sum, a missing name counting for [0]. *)
Lemma final_performance_numeric (d : gmap string (option Q))
    (sales wastage opex turnover excellence mystery behaviour : Q) :
  get d "Sales" (Some 0) = Some sales ->
  get d "Wastage" (Some 0) = Some wastage ->
  get d "OPEX" (Some 0) = Some opex ->
  get d "Turnover" (Some 0) = Some turnover ->
  get d "Excellence check" (Some 0) = Some excellence ->
  get d "Mystery shopper" (Some 0) = Some mystery ->
  get d "Behaviour" (Some 0) = Some behaviour ->
  calculate_final_performance d
  = Ret (aggregate_spec sales wastage opex turnover
           excellence mystery behaviour).
Proof.
  intros Hs Hw Ho Ht He Hm Hb. unfold calculate_final_performance.
  rewrite Hs, Hw, Ho, Ht, He, Hm, Hb. reflexivity.
Qed.

(** On a mapping without [None] under the seven names, the aggregator
    returns the weighted sum of section 4.8. *)
Lemma get_contribution (d : gmap string (option Q)) (k : string) :
  d !! k <> Some None -> get d k (Some 0) = Some (contribution d k).
Proof.
  unfold get, contribution.
  destruct (d !! k) as [[x|]|]; cbn [from_option id]; congruence.
Qed.

Lemma final_performance_without_none (d : gmap string (option Q)) :
  (forall k, d !! k <> Some None) ->
  calculate_final_performance d = Ret (final_performance_spec d).
Proof.
  intros Hd. unfold final_performance_spec.
  apply final_performance_numeric; apply get_contribution, Hd.
Qed.

(** An entry that is present but [None] makes the aggregator raise. *)
Lemma final_performance_none_entry (d : gmap string (option Q))
    (k : string) :
  k ∈ ["Sales"; "Wastage"; "OPEX"; "Turnover"; "Excellence check";
       "Mystery shopper"; "Behaviour"] ->
  d !! k = Some None ->
  calculate_final_performance d = Raise TypeError.
Proof.
  intros Hk Hd. unfold calculate_final_performance.
  assert (Hget : get d k (Some 0) = None) by now apply get_present.
  repeat (apply elem_of_cons in Hk as [->|Hk];
          [rewrite Hget; cbn [py_mul];
           repeat match goal with
           | |- context [py_mul ?v ?w] =>
               destruct (py_mul v w) as [?|[]] eqn:?;
               try reflexivity; try (destruct v; discriminate)
           end; reflexivity|]).
  now apply elem_of_nil in Hk.
Qed.

(** * The properties of the scoring engine *)

(** ** C1: range of the scores *)

(** C1, as stated, fails: the Sales normalizer only caps its ratio at
    [1.0], so a negative actual against a positive target gives a negative
    score: [calculate_sales_performance(-1, 1)] is [-1.0]. *)
Lemma sales_score_below_zero :
  calculate_sales_performance (Some (-1)) (Some 1) = Ret (-1 / 1)
  /\ ~ returns unit_interval
         (calculate_sales_performance (Some (-1)) (Some 1)).
Proof.
  split; [reflexivity|]. cbn. unfold unit_interval. intros [H _].
  revert H. apply Qlt_not_le. reflexivity.
Qed.

(** C1, amended: for every numeric input, zero and negative values
    included, the Wastage, OPEX and Turnover scores lie in [[0.0, 1.0]];
    the Sales, Mystery shopper, Excellence check and Behaviour scores are
    at most [1.0], and they are at least [0.0] exactly when the actual
    value is non-negative (for Sales: exactly when actual and target do
    not have opposite signs, [0 <= actual * target]). *)
Theorem normalizer_scores_range :
  (forall a s t : Q,
     returns unit_interval
       (calculate_wastage_performance (Some a) (Some s) (Some t)))
  /\ (forall a t s : Q,
        returns unit_interval
          (calculate_opex_performance (Some a) (Some t) (Some s)))
  /\ (forall a t : Q,
        returns unit_interval
          (calculate_turnover_performance (Some a) (Some t)))
  /\ (forall a f : Q,
        returns (fun v => v <= 1 /\ (0 <= v <-> 0 <= a * f))
          (calculate_sales_performance (Some a) (Some f)))
  /\ (forall a : Q,
        returns (fun v => v <= 1 /\ (0 <= v <-> 0 <= a))
          (calculate_mystery_shopper_performance (Some a)))
  /\ (forall a : Q,
        returns (fun v => v <= 1 /\ (0 <= v <-> 0 <= a))
          (calculate_excellence_performance (Some a)))
  /\ (forall a : Q,
        returns (fun v => v <= 1 /\ (0 <= v <-> 0 <= a))
          (calculate_behavioural_performance (Some a))).
Proof.
  split; [|split; [|split; [|split; [|split; [|split]]]]].
  - intros a s t.
    eapply returns_impl; [|apply wastage_performance_policy].
    intros v Hv. pose proof (wastage_policy_range a t) as [? ?].
    unfold unit_interval. rewrite Hv. tauto.
  - intros a t s. apply returns_try_except.
    eapply returns_impl; [|apply opex_try_policy].
    intros v Hv. pose proof (wastage_policy_range (a / s) (t / s)) as [? ?].
    unfold unit_interval. rewrite Hv. destruct (Qeq_bool s 0); lra.
  - intros a t.
    eapply returns_impl; [|apply turnover_performance_spec].
    intros v Hv. pose proof (turnover_spec_range a t) as [? ?].
    unfold unit_interval. rewrite Hv. tauto.
  - intros a f. rewrite sales_performance_value. cbn [returns].
    destruct (Qeq_bool f 0) eqn:Hf; qprop.
    + split; [lra|]. split; intros _; nra.
    + split; [pose proof (py_min_le (a / f) 1.0); lra|].
      rewrite py_min_nonneg by lra. now apply quotient_sign.
  - intros a. apply (capped_ratio_range a 100.0). reflexivity.
  - intros a. apply (capped_ratio_range a 100.0). reflexivity.
  - intros a. apply (capped_ratio_range a 5.0). reflexivity.
Qed.

(** ** C2: the aggregator on absent entries *)

(** C2 at the mapping [{"Sales": None}], which the caller stores for a KPI
    without inputs: the aggregator does not default the absent result to
    [0.0], as section 4.8 asks (final score [0.0]); [None * 0.30] raises
    [TypeError]. *)
Theorem final_performance_absent_entry_raises :
  calculate_final_performance {[ "Sales" := None ]} = Raise TypeError
  /\ final_performance_spec {[ "Sales" := None ]} == 0.0.
Proof. split; [reflexivity | vm_compute; reflexivity]. Qed.

(** ** C3: the wastage normalizer follows section 4.2 *)

(** C3: for every input of the wastage normalizer, absent or numeric, the
    value returned is the one section 4.2 prescribes: [0.0] when an input is
    absent, [1.0] when actual <= target, [0.0] when the target is zero or
    actual >= 1.2 * target, and the clamped linear penalty otherwise. *)
Theorem wastage_performance_matches_spec
    (actual_wastage actual_sales wastage_target_amount : option Q) :
  returns
    (fun v =>
       v == wastage_spec actual_wastage actual_sales wastage_target_amount)
    (calculate_wastage_performance
       actual_wastage actual_sales wastage_target_amount).
Proof.
  destruct actual_wastage as [a|], actual_sales as [s|],
    wastage_target_amount as [t|]; try (cbn; reflexivity).
  apply wastage_performance_policy.
Qed.

(** ** C4: the turnover normalizer follows section 4.4 *)

(** C4: with both separations present, the turnover normalizer returns
    [1.0] when actual <= target, [0.0] when the target is zero or
    actual >= 1.2 * target, and otherwise
    [1.0 - ((actual / target) - 1.0) * 5.0] clamped to [[0.0, 1.0]]. *)
Theorem turnover_performance_matches_spec
    (actual_separations target_separations : Q) :
  returns (fun v => v == turnover_spec actual_separations target_separations)
    (calculate_turnover_performance
       (Some actual_separations) (Some target_separations)).
Proof. apply turnover_performance_spec. Qed.

(** ** C5: OPEX is the wastage normalizer on percentages of sales *)

(** C5: for numeric inputs with non-zero sales,
    [calculate_opex_performance(a, t, s)] is exactly
    [calculate_wastage_performance(a / s, s, t / s)], and its value is the
    wastage policy of section 4.2 applied to [a / s] against [t / s]. *)
Theorem opex_performance_is_wastage_on_percentages
    (actual_opex target_opex actual_sales : Q) :
  ~ actual_sales == 0 ->
  calculate_opex_performance
    (Some actual_opex) (Some target_opex) (Some actual_sales)
  = calculate_wastage_performance
      (Some (actual_opex / actual_sales)) (Some actual_sales)
      (Some (target_opex / actual_sales))
  /\ returns
       (fun v => v == wastage_policy (actual_opex / actual_sales)
                        (target_opex / actual_sales))
       (calculate_opex_performance
          (Some actual_opex) (Some target_opex) (Some actual_sales)).
Proof.
  intros Hs. split.
  - unfold calculate_opex_performance, calculate_wastage_performance.
    now rewrite opex_try_as_wastage_try.
  - now apply opex_performance_policy.
Qed.

Lemma opex_performance_is_wastage_on_percentages_witness :
  calculate_opex_performance (Some 21000) (Some 20000) (Some 100000)
  = calculate_wastage_performance
      (Some (21000 / 100000)) (Some 100000) (Some (20000 / 100000))
  /\ returns
       (fun v => v == wastage_policy (21000 / 100000) (20000 / 100000))
       (calculate_opex_performance
          (Some 21000) (Some 20000) (Some 100000)).
Proof.
  apply (opex_performance_is_wastage_on_percentages 21000 20000 100000).
  discriminate.
Defined.

(** ** C6: more wastage or OPEX never scores better *)

(** C6: for a fixed positive target, the wastage normalizer (at any fixed
    numeric sales amount) and the OPEX normalizer (at any fixed positive
    sales amount) are non-increasing in the actual value: from
    [a1 <= a2] the score at [a1] is at least the score at [a2]. *)
Theorem wastage_and_opex_monotone (target : Q) :
  0 < target ->
  (forall sales a1 a2 : Q,
     a1 <= a2 ->
     result_ge
       (calculate_wastage_performance (Some a1) (Some sales) (Some target))
       (calculate_wastage_performance (Some a2) (Some sales) (Some target)))
  /\ (forall sales a1 a2 : Q,
        0 < sales ->
        a1 <= a2 ->
        result_ge
          (calculate_opex_performance (Some a1) (Some target) (Some sales))
          (calculate_opex_performance (Some a2) (Some target) (Some sales))).
Proof.
  intros Ht. split.
  - intros s a1 a2 Ha.
    eapply result_ge_intro; try apply wastage_performance_policy.
    now apply wastage_policy_mono.
  - intros s a1 a2 Hs Ha.
    assert (Hs0 : ~ s == 0) by lra.
    eapply result_ge_intro; try (apply opex_performance_policy; exact Hs0).
    assert (Hinv : 0 < / s) by now apply Qinv_lt_0_compat.
    apply wastage_policy_mono; unfold Qdiv.
    + now apply Qmult_lt_0_compat.
    + apply Qmult_le_compat_r; lra.
Qed.

Lemma wastage_and_opex_monotone_witness :
  result_ge
    (calculate_wastage_performance (Some 105) (Some 1000) (Some 100))
    (calculate_wastage_performance (Some 110) (Some 1000) (Some 100))
  /\ result_ge
       (calculate_opex_performance (Some 105) (Some 100) (Some 1000))
       (calculate_opex_performance (Some 110) (Some 100) (Some 1000)).
Proof.
  destruct (wastage_and_opex_monotone 100 eq_refl) as [Hw Ho].
  split.
  - apply (Hw 1000 105 110). discriminate.
  - apply (Ho 1000 105 110); [reflexivity | discriminate].
Defined.

(** ** C7: point values of the aggregator *)

(** C7, as stated, fails: on seven results equal to [1.0] the aggregator,
    computing in binary64 as the script does, returns a score that is not
    equal to [1.0] and lies below it. *)
Lemma binary64_all_ones_below_one :
  PrimFloat.eqb (Binary64.calculate_final_performance 1 1 1 1 1 1 1) 1
  = false
  /\ PrimFloat.ltb (Binary64.calculate_final_performance 1 1 1 1 1 1 1) 1
     = true.
Proof. split; vm_compute; reflexivity. Qed.

(** C7, amended: in the binary64 arithmetic of the script, seven results
    equal to [1.0] aggregate to [0.9999999999999999], the largest double
    below [1.0]; seven results equal to [0.0] aggregate to [0.0]; and Sales
    at [1.0] with the six others at [0.0] aggregates to [0.15], which is
    also the double [0.30 * 0.5]. *)
Theorem binary64_final_performance_point_values :
  PrimFloat.eqb (Binary64.calculate_final_performance 1 1 1 1 1 1 1)
    0.9999999999999999 = true
  /\ PrimFloat.eqb (PrimFloat.next_down 1) 0.9999999999999999 = true
  /\ PrimFloat.eqb (Binary64.calculate_final_performance 0 0 0 0 0 0 0) 0.0
     = true
  /\ PrimFloat.eqb (Binary64.calculate_final_performance 1 0 0 0 0 0 0)
       0.15 = true
  /\ PrimFloat.eqb (0.30 * 0.5) 0.15 = true.
Proof. repeat split; vm_compute; reflexivity. Qed.

(** ** C8: the normalizers are total *)

(** C8: every normalizer returns a value on every input, absent, zero or
    negative; and no [try] block ever raises, so the
    [except ZeroDivisionError] handlers are unreachable: every division is
    guarded.  (The [try] block of the Sales normalizer is entered only with
    a non-zero forecast.) *)
Theorem normalizers_total :
  ((forall a f : option Q,
      exists v, calculate_sales_performance a f = Ret v)
   /\ (forall a s t : option Q,
         exists v, calculate_wastage_performance a s t = Ret v)
   /\ (forall a t s : option Q,
         exists v, calculate_opex_performance a t s = Ret v)
   /\ (forall a t : option Q,
         exists v, calculate_turnover_performance a t = Ret v)
   /\ (forall a : option Q,
         exists v, calculate_mystery_shopper_performance a = Ret v)
   /\ (forall a : option Q,
         exists v, calculate_excellence_performance a = Ret v)
   /\ (forall a : option Q,
         exists v, calculate_behavioural_performance a = Ret v))
  /\ ((forall a f : Q,
         ~ f == 0 -> exists v, calculate_sales_performance_try a f = Ret v)
      /\ (forall a s t : Q,
            exists v, calculate_wastage_performance_try a s t = Ret v)
      /\ (forall a t s : Q,
            exists v, calculate_opex_performance_try a t s = Ret v)
      /\ (forall a t : Q,
            exists v, calculate_turnover_performance_try a t = Ret v)
      /\ (forall a : Q,
            exists v, calculate_mystery_shopper_performance_try a = Ret v)
      /\ (forall a : Q,
            exists v, calculate_excellence_performance_try a = Ret v)
      /\ (forall a : Q,
            exists v, calculate_behavioural_performance_try a = Ret v)).
Proof.
  assert (Hw : forall a s t : Q,
             exists v, calculate_wastage_performance_try a s t = Ret v).
  { intros a s t.
    destruct (returns_Ret _ _ (wastage_try_policy a s t)) as (v & Hv & _).
    eauto. }
  assert (Ho : forall a t s : Q,
             exists v, calculate_opex_performance_try a t s = Ret v).
  { intros a t s.
    destruct (returns_Ret _ _ (opex_try_policy a t s)) as (v & Hv & _).
    eauto. }
  assert (Ht : forall a t : Q,
             exists v, calculate_turnover_performance_try a t = Ret v).
  { intros a t.
    destruct (returns_Ret _ _ (turnover_try_spec a t)) as (v & Hv & _).
    eauto. }
  split; repeat apply conj.
  - intros [a|] [f|]; try (eexists; reflexivity).
    rewrite sales_performance_value. eauto.
  - intros [a|] [s|] [t|]; try (eexists; reflexivity).
    destruct (Hw a s t) as [v Hv]. exists v.
    unfold calculate_wastage_performance. now rewrite Hv.
  - intros [a|] [t|] [s|]; try (eexists; reflexivity).
    destruct (Ho a t s) as [v Hv]. exists v.
    unfold calculate_opex_performance. now rewrite Hv.
  - intros [a|] [t|]; try (eexists; reflexivity).
    destruct (Ht a t) as [v Hv]. exists v.
    unfold calculate_turnover_performance. now rewrite Hv.
  - intros [a|]; eexists; reflexivity.
  - intros [a|]; eexists; reflexivity.
  - intros [a|]; eexists; reflexivity.
  - intros a f Hf. rewrite (sales_try_value a f Hf). eauto.
  - exact Hw.
  - exact Ho.
  - exact Ht.
  - intros a. eexists; reflexivity.
  - intros a. eexists; reflexivity.
  - intros a. eexists; reflexivity.
Qed.

Lemma normalizers_total_witness :
  exists v, calculate_sales_performance_try 50000 100000 = Ret v.
Proof.
  destruct normalizers_total as [_ [Hsales _]].
  apply (Hsales 50000 100000). discriminate.
Defined.

(** ** C9: Excellence check and Mystery shopper agree *)

(** C9: on every input, absent or numeric, the Excellence check normalizer
    and the Mystery shopper normalizer return the same result. *)
Theorem excellence_equals_mystery_shopper (actual_value : option Q) :
  calculate_excellence_performance actual_value
  = calculate_mystery_shopper_performance actual_value.
Proof. reflexivity. Qed.

(** ** C10: the sales amount does not influence the wastage score *)

(** C10: for numeric actual wastage and target, any two numeric sales
    amounts give the wastage normalizer the same result. *)
Theorem wastage_performance_ignores_sales_value (a t s1 s2 : Q) :
  calculate_wastage_performance (Some a) (Some s1) (Some t)
  = calculate_wastage_performance (Some a) (Some s2) (Some t).
Proof.
  unfold calculate_wastage_performance.
  now rewrite (wastage_try_sales a s1 t), (wastage_try_sales a s2 t).
Qed.

(** ** Where the last digits depend on rounding *)

(** In binary64 the ratio-based penalty of Turnover and the amount-based
    penalty of Wastage and OPEX, equal as rational numbers, can differ in
    the last digits, and so can the OPEX score at two sales amounts. *)
Remark binary64_penalties :
  Binary64.returns_float
    (Binary64.calculate_turnover_performance (Some 105%float) (Some 100%float))
    0.7499999999999998 = true
  /\ Binary64.returns_float
       (Binary64.calculate_wastage_performance
          (Some 105%float) (Some 1000%float) (Some 100%float))
       0.75 = true
  /\ Binary64.returns_float
       (Binary64.calculate_opex_performance
          (Some 21000%float) (Some 20000%float) (Some 100000%float))
       0.7500000000000004 = true
  /\ Binary64.returns_float
       (Binary64.calculate_opex_performance
          (Some 21000%float) (Some 20000%float) (Some 90000%float))
       0.7499999999999997 = true
  /\ Binary64.returns_float
       (Binary64.calculate_wastage_performance
          (Some 3.3%float) (Some 100000%float) (Some 3%float))
       0.5000000000000002 = true.
Proof. repeat split; vm_compute; reflexivity. Qed.

(** * Further properties of the normalizers *)

Lemma result_le_intro (r1 r2 : result Q) (x1 x2 : Q) :
  returns (fun v => v == x1) r1 ->
  returns (fun v => v == x2) r2 ->
  x1 <= x2 ->
  result_le r1 r2.
Proof.
  unfold result_le. destruct r1 as [v1|]; [|contradiction].
  destruct r2 as [v2|]; [|contradiction]. cbn. intros -> ->. tauto.
Qed.

Lemma clamp01_proper (x y : Q) : x == y -> clamp01 x == clamp01 y.
Proof. unfold clamp01. intros Hxy. qcases; lra. Qed.


(** The penalty of sections 4.2 and 4.4 is the same number: five times the
    relative excess over the target. *)
Lemma penalty_amount_form (a t : Q) :
  ~ t == 0 ->
  1.0 - (a - t) * (100 / (t * 20)) == 1 - 5 * ((a - t) / t).
Proof. intros Ht. field. exact Ht. Qed.

Lemma penalty_ratio_form (a t : Q) :
  ~ t == 0 ->
  1.0 - ((a / t) - 1.0) * 5.0 == 1 - 5 * ((a - t) / t).
Proof. intros Ht. field. exact Ht. Qed.

Lemma turnover_spec_is_wastage_policy (a t : Q) :
  turnover_spec a t == wastage_policy a t.
Proof.
  unfold turnover_spec, wastage_policy.
  destruct (Qle_bool a t); [reflexivity|].
  destruct (Qeq_bool t 0) eqn:Ht; [reflexivity|].
  destruct (Qle_bool (t * 1.2) a); [reflexivity|].
  apply Qeq_bool_false in Ht. apply clamp01_proper.
  now rewrite penalty_amount_form, penalty_ratio_form.
Qed.



Lemma wastage_policy_nonpositive_target (a t : Q) :
  t <= 0 -> wastage_policy a t == if Qle_bool a t then 1 else 0.
Proof.
  intros Ht. unfold wastage_policy.
  destruct (Qle_bool a t) eqn:H1; qprop; [lra|].
  destruct (Qeq_bool t 0) eqn:H0; qprop; [lra|].
  destruct (Qle_bool (t * 1.2) a) eqn:H2; qprop; lra.
Qed.


Lemma wastage_within_target (a s t : Q) :
  a <= t ->
  calculate_wastage_performance (Some a) (Some s) (Some t) = Ret 1.0.
Proof.
  intros Ha. unfold calculate_wastage_performance.
  rewrite wastage_try_sales. unfold calculate_wastage_performance_try.
  apply Qle_bool_iff in Ha. rewrite Ha. reflexivity.
Qed.

Lemma opex_within_target_percentage (a t s : Q) :
  ~ s == 0 -> a / s <= t / s ->
  calculate_opex_performance (Some a) (Some t) (Some s) = Ret 1.0.
Proof.
  intros Hs Ha. unfold calculate_opex_performance.
  rewrite (opex_try_as_wastage_try a t s Hs).
  exact (wastage_within_target (a / s) s (t / s) Ha).
Qed.

Lemma returns_eq_trans (r : result Q) (x y : Q) :
  x == y -> returns (fun v => v == x) r -> returns (fun v => v == y) r.
Proof. intros Hxy. apply returns_impl. intros v ->. exact Hxy. Qed.

Lemma py_min_mono (x y b : Q) : x <= y -> py_min x b <= py_min y b.
Proof. unfold py_min. intros Hxy. qcases; lra. Qed.

Lemma py_min_full (x : Q) : py_min x 1.0 == 1 <-> 1 <= x.
Proof. unfold py_min. qcases; split; intros; lra. Qed.

Lemma py_min_below (x : Q) : x <= 1 -> py_min x 1.0 == x.
Proof. unfold py_min. intros Hx. qcases; lra. Qed.

Lemma quotient_mono (a1 a2 d : Q) : 0 < d -> a1 <= a2 -> a1 / d <= a2 / d.
Proof.
  intros Hd Ha. unfold Qdiv.
  apply Qmult_le_compat_r; [assumption|].
  apply Qlt_le_weak. now apply Qinv_lt_0_compat.
Qed.

Lemma quotient_antimono (a1 a2 d : Q) :
  d < 0 -> a1 <= a2 -> a2 / d <= a1 / d.
Proof.
  intros Hd Ha.
  assert (H1 : a1 / d == (- a1) / (- d)) by (field; lra).
  assert (H2 : a2 / d == (- a2) / (- d)) by (field; lra).
  rewrite H1, H2. apply quotient_mono; lra.
Qed.

Lemma quotient_ge_one (a d : Q) : 0 < d -> (1 <= a / d <-> d <= a).
Proof.
  intros Hd.
  assert (Hq : a == a / d * d) by (field; lra).
  split; intros H; nra.
Qed.

(** The capped ratio [min(a / d, 1.0)] over a positive [d]. *)
Lemma capped_ratio_profile (a d : Q) :
  0 < d ->
  (py_min (a / d) 1.0 == 1 <-> d <= a)
  /\ (a <= d -> py_min (a / d) 1.0 == a / d).
Proof.
  intros Hd. split.
  - rewrite py_min_full. now apply quotient_ge_one.
  - intros Ha. apply py_min_below.
    assert (Hq : a == a / d * d) by (field; lra). nra.
Qed.

Lemma sales_performance_positive_target (a t : Q) :
  0 < t ->
  calculate_sales_performance (Some a) (Some t) = Ret (py_min (a / t) 1.0).
Proof.
  intros Ht. rewrite sales_performance_value.
  assert (H : Qeq_bool t 0 = false) by (apply Qeq_bool_false; lra).
  now rewrite H.
Qed.

(** ** X2: the sign of the sales decides which OPEX earns full marks *)

(** X2: with a positive actual sales amount the OPEX normalizer returns
    the full score [1.0] whenever actual OPEX <= target OPEX; with a
    negative sales amount the comparison of the two percentages is
    reversed, and it returns [1.0] whenever actual OPEX >= target OPEX. *)
Theorem opex_full_score_by_sign_of_sales (actual target sales : Q) :
  (0 < sales -> actual <= target ->
   calculate_opex_performance (Some actual) (Some target) (Some sales)
   = Ret 1.0)
  /\ (sales < 0 -> target <= actual ->
      calculate_opex_performance (Some actual) (Some target) (Some sales)
      = Ret 1.0).
Proof.
  split; intros Hs Ha; apply opex_within_target_percentage; try lra.
  - now apply quotient_mono.
  - now apply quotient_antimono.
Qed.

Lemma opex_full_score_by_sign_of_sales_witness :
  calculate_opex_performance (Some 15000) (Some 20000) (Some 100000)
  = Ret 1.0
  /\ calculate_opex_performance (Some 25000) (Some 20000) (Some (-100000))
     = Ret 1.0.
Proof.
  split.
  - destruct (opex_full_score_by_sign_of_sales 15000 20000 100000)
      as [Hpos _].
    apply Hpos; [reflexivity | discriminate].
  - destruct (opex_full_score_by_sign_of_sales 25000 20000 (-100000))
      as [_ Hneg].
    apply Hneg; [reflexivity | discriminate].
Defined.

(** ** X3: full marks exactly within the target *)


(** ** X4: no partial credit against a non-positive target *)

(** X4: when the target is zero or negative, the Wastage and Turnover
    scores are all or nothing: [1.0] if actual <= target and [0.0]
    otherwise. *)
Theorem nonpositive_target_all_or_nothing (actual sales target : Q) :
  target <= 0 ->
  returns (fun v => v == if Qle_bool actual target then 1 else 0)
    (calculate_wastage_performance (Some actual) (Some sales) (Some target))
  /\ returns (fun v => v == if Qle_bool actual target then 1 else 0)
       (calculate_turnover_performance (Some actual) (Some target)).
Proof.
  intros Ht. split.
  - eapply returns_eq_trans; [|apply wastage_performance_policy].
    now apply wastage_policy_nonpositive_target.
  - eapply returns_eq_trans; [|apply turnover_performance_spec].
    rewrite turnover_spec_is_wastage_policy.
    now apply wastage_policy_nonpositive_target.
Qed.

Lemma nonpositive_target_all_or_nothing_witness :
  returns (fun v => v == if Qle_bool 1 0 then 1 else 0)
    (calculate_wastage_performance (Some 1) (Some 100) (Some 0))
  /\ returns (fun v => v == if Qle_bool 1 0 then 1 else 0)
       (calculate_turnover_performance (Some 1) (Some 0)).
Proof. apply (nonpositive_target_all_or_nothing 1 100 0). discriminate. Defined.

(** ** X5: more is never worse for the ratio normalizers *)

(** X5: the Sales score (for a fixed positive target) and the Mystery
    shopper, Excellence check and Behaviour scores are non-decreasing in
    the actual value. *)
Theorem ratio_normalizers_monotone (a1 a2 : Q) :
  a1 <= a2 ->
  (forall target : Q,
     0 < target ->
     result_le
       (calculate_sales_performance (Some a1) (Some target))
       (calculate_sales_performance (Some a2) (Some target)))
  /\ result_le
       (calculate_mystery_shopper_performance (Some a1))
       (calculate_mystery_shopper_performance (Some a2))
  /\ result_le
       (calculate_excellence_performance (Some a1))
       (calculate_excellence_performance (Some a2))
  /\ result_le
       (calculate_behavioural_performance (Some a1))
       (calculate_behavioural_performance (Some a2)).
Proof.
  intros Ha.
  assert (Hcap : forall d, 0 < d ->
            py_min (a1 / d) 1.0 <= py_min (a2 / d) 1.0).
  { intros d Hd. now apply py_min_mono, quotient_mono. }
  split; [|split; [|split]].
  - intros t Ht. rewrite !sales_performance_positive_target by assumption.
    now apply Hcap.
  - apply (Hcap 100.0). reflexivity.
  - apply (Hcap 100.0). reflexivity.
  - apply (Hcap 5.0). reflexivity.
Qed.

Lemma ratio_normalizers_monotone_witness :
  result_le
    (calculate_sales_performance (Some 40) (Some 100))
    (calculate_sales_performance (Some 60) (Some 100))
  /\ result_le
       (calculate_behavioural_performance (Some 40))
       (calculate_behavioural_performance (Some 60)).
Proof.
  destruct (ratio_normalizers_monotone 40 60) as (Hs & _ & _ & Hb).
  - discriminate.
  - split; [apply (Hs 100); reflexivity | exact Hb].
Defined.

(** ** X6: where the ratio normalizers reach the full score *)

(** X6: for a positive target the Sales score is [1.0] exactly when
    actual >= target, and below the target it is the plain ratio
    [actual / target]; likewise Mystery shopper and Excellence check
    against [100] and Behaviour against [5]. *)
Theorem ratio_normalizers_profile (actual : Q) :
  (forall target : Q,
     0 < target ->
     returns
       (fun v => (v == 1 <-> target <= actual)
                 /\ (actual <= target -> v == actual / target))
       (calculate_sales_performance (Some actual) (Some target)))
  /\ returns
       (fun v => (v == 1 <-> 100 <= actual)
                 /\ (actual <= 100 -> v == actual / 100))
       (calculate_mystery_shopper_performance (Some actual))
  /\ returns
       (fun v => (v == 1 <-> 100 <= actual)
                 /\ (actual <= 100 -> v == actual / 100))
       (calculate_excellence_performance (Some actual))
  /\ returns
       (fun v => (v == 1 <-> 5 <= actual)
                 /\ (actual <= 5 -> v == actual / 5))
       (calculate_behavioural_performance (Some actual)).
Proof.
  split; [|split; [|split]].
  - intros t Ht. rewrite sales_performance_positive_target by assumption.
    now apply capped_ratio_profile.
  - pose proof (capped_ratio_profile actual 100.0 eq_refl) as [H1 H2].
    split; [rewrite H1; split; intros; lra|].
    intros Ha.
    change (py_min (actual / 100.0) 1.0 == actual / 100).
    rewrite H2 by lra. field.
  - pose proof (capped_ratio_profile actual 100.0 eq_refl) as [H1 H2].
    split; [rewrite H1; split; intros; lra|].
    intros Ha.
    change (py_min (actual / 100.0) 1.0 == actual / 100).
    rewrite H2 by lra. field.
  - pose proof (capped_ratio_profile actual 5.0 eq_refl) as [H1 H2].
    split; [rewrite H1; split; intros; lra|].
    intros Ha.
    change (py_min (actual / 5.0) 1.0 == actual / 5).
    rewrite H2 by lra. field.
Qed.

Lemma ratio_normalizers_profile_witness :
  returns
    (fun v => (v == 1 <-> 100000 <= 50000)
              /\ (50000 <= 100000 -> v == 50000 / 100000))
    (calculate_sales_performance (Some 50000) (Some 100000)).
Proof.
  destruct (ratio_normalizers_profile 50000) as [Hs _].
  apply (Hs 100000). reflexivity.
Defined.

(** * Further properties of the aggregator *)

Lemma kpi_names_cases (k : string) :
  k ∈ kpi_names ->
  k = "Sales" \/ k = "Wastage" \/ k = "OPEX" \/ k = "Turnover"
  \/ k = "Mystery shopper" \/ k = "Excellence check" \/ k = "Behaviour".
Proof.
  unfold kpi_names. rewrite !elem_of_cons, elem_of_nil. tauto.
Qed.

Lemma elem_of_kpi_names (k : string) :
  k = "Sales" \/ k = "Wastage" \/ k = "OPEX" \/ k = "Turnover"
  \/ k = "Mystery shopper" \/ k = "Excellence check" \/ k = "Behaviour" ->
  k ∈ kpi_names.
Proof.
  unfold kpi_names. rewrite !elem_of_cons, elem_of_nil. tauto.
Qed.

Ltac kpi_name := apply elem_of_kpi_names; tauto.

Lemma final_performance_present (d : gmap string (option Q)) :
  results_present d ->
  calculate_final_performance d = Ret (final_performance_spec d).
Proof.
  intros Hd. unfold final_performance_spec.
  apply final_performance_numeric; apply get_contribution, Hd; kpi_name.
Qed.

Lemma none_entry_cases (d : gmap string (option Q)) (names : list string) :
  (exists k, k ∈ names /\ d !! k = Some None)
  \/ (forall k, k ∈ names -> d !! k <> Some None).
Proof.
  induction names as [|n names [(k & Hk & Hd)|IH]].
  - right. intros k Hk. now apply elem_of_nil in Hk.
  - left. exists k. split; [now apply elem_of_cons; right | exact Hd].
  - destruct (d !! n) as [[x|]|] eqn:Hn.
    + right. intros k [->|Hk]%elem_of_cons; [congruence | now apply IH].
    + left. exists n. split; [apply elem_of_cons; now left | exact Hn].
    + right. intros k [->|Hk]%elem_of_cons; [congruence | now apply IH].
Qed.

Lemma aggregate_effective_weights (s w o t e m b : Q) :
  aggregate_spec s w o t e m b
  == 0.15 * s + 0.15 * w + 0.10 * o + 0.10 * t
     + 0.20 * e + 0.20 * m + 0.10 * b.
Proof. unfold aggregate_spec. ring. Qed.

Lemma aggregate_between (lo hi s w o t e m b : Q) :
  lo <= s <= hi -> lo <= w <= hi -> lo <= o <= hi -> lo <= t <= hi ->
  lo <= e <= hi -> lo <= m <= hi -> lo <= b <= hi ->
  lo <= aggregate_spec s w o t e m b <= hi.
Proof. intros. rewrite aggregate_effective_weights. lra. Qed.

Lemma final_performance_bounds (d : gmap string (option Q)) :
  results_present d ->
  (forall k, k ∈ kpi_names -> 0 <= contribution d k <= 1) ->
  returns unit_interval (calculate_final_performance d).
Proof.
  intros Hd Hc. rewrite (final_performance_present d Hd). run.
  unfold final_performance_spec, unit_interval.
  apply aggregate_between; apply Hc; kpi_name.
Qed.

Lemma contribution_insert_eq (d : gmap string (option Q)) (k : string)
    (x : Q) :
  contribution (<[k := Some x]> d) k = x.
Proof. unfold contribution. now rewrite lookup_insert_eq. Qed.

Lemma contribution_insert_ne (d : gmap string (option Q)) (k k' : string)
    (v : option Q) :
  k <> k' -> contribution (<[k := v]> d) k' = contribution d k'.
Proof. intros Hk. unfold contribution. now rewrite lookup_insert_ne. Qed.

Lemma get_insert_ne (d : gmap string (option Q)) (k k' : string)
    (v dflt : option Q) :
  k <> k' -> get (<[k := v]> d) k' dflt = get d k' dflt.
Proof. intros Hk. unfold get. now rewrite lookup_insert_ne. Qed.

Lemma results_present_insert (d : gmap string (option Q)) (k : string)
    (x : Q) :
  (forall k', k' ∈ kpi_names -> k' <> k -> d !! k' <> Some None) ->
  results_present (<[k := Some x]> d).
Proof.
  intros Hd k' Hk'. destruct (decide (k = k')) as [->|Hne].
  - rewrite lookup_insert_eq. discriminate.
  - rewrite lookup_insert_ne by assumption. apply Hd; congruence.
Qed.

(** Replacing one of the seven results by a larger number. *)
Lemma final_spec_insert_mono (d : gmap string (option Q)) (k : string)
    (x y : Q) :
  k ∈ kpi_names -> x <= y ->
  final_performance_spec (<[k := Some x]> d)
  <= final_performance_spec (<[k := Some y]> d).
Proof.
  intros Hk Hxy. unfold final_performance_spec.
  rewrite !aggregate_effective_weights.
  apply kpi_names_cases in Hk.
  repeat (destruct Hk as [->|Hk]; [
    repeat first [ rewrite contribution_insert_eq
                 | rewrite contribution_insert_ne by discriminate ];
    lra |]).
  subst k.
  repeat first [ rewrite contribution_insert_eq
               | rewrite contribution_insert_ne by discriminate ].
  lra.
Qed.

(** ** X7: when the aggregator fails, and what it returns otherwise *)

(** X7: the aggregator raises [TypeError] exactly when one of the seven
    KPI names is mapped to [None]; on every other mapping it returns the
    weighted sum of section 4.8, a missing name counting for [0]. *)
Theorem final_performance_outcome (kpi_results : gmap string (option Q)) :
  (calculate_final_performance kpi_results = Raise TypeError
   <-> exists k, k ∈ kpi_names /\ kpi_results !! k = Some None)
  /\ (calculate_final_performance kpi_results
      = Ret (final_performance_spec kpi_results)
      <-> forall k, k ∈ kpi_names -> kpi_results !! k <> Some None).
Proof.
  destruct (none_entry_cases kpi_results kpi_names)
    as [(k & Hk & Hnone)|Hpresent].
  - assert (Hraise : calculate_final_performance kpi_results
                     = Raise TypeError).
    { apply (final_performance_none_entry kpi_results k); [|exact Hnone].
      pose proof (kpi_names_cases k Hk). rewrite !elem_of_cons. tauto. }
    split; split; intros H; eauto.
    + congruence.
    + exfalso. exact (H k Hk Hnone).
  - pose proof (final_performance_present kpi_results Hpresent) as Hret.
    split; split; intros H; eauto.
    + congruence.
    + destruct H as (k & Hk & Hnone). exfalso. exact (Hpresent k Hk Hnone).
Qed.

(** ** X8: scores in range give a final score in range *)

(** X8: when no KPI name is mapped to [None] and each of the seven results
    (a missing one counting as [0]) lies in [[0.0, 1.0]], the final score
    lies in [[0.0, 1.0]]. *)
Theorem final_performance_unit_interval
    (kpi_results : gmap string (option Q)) :
  (forall k, k ∈ kpi_names ->
     kpi_results !! k <> Some None
     /\ 0 <= contribution kpi_results k /\ contribution kpi_results k <= 1)
  ->
  returns unit_interval (calculate_final_performance kpi_results).
Proof.
  intros H. apply final_performance_bounds.
  - intros k Hk. now apply H.
  - intros k Hk. now apply H.
Qed.

Lemma final_performance_unit_interval_witness :
  returns unit_interval
    (calculate_final_performance
       (kpi_results_of (Some 1.0) (Some 0.5) (Some 0.75) (Some 0.0)
          (Some 0.9) (Some 1.0) (Some 0.8))).
Proof.
  apply final_performance_unit_interval.
  intros k Hk. apply kpi_names_cases in Hk.
  repeat (destruct Hk as [->|Hk];
          [vm_compute; repeat split; discriminate|]).
  subst k. vm_compute. repeat split; discriminate.
Defined.

(** ** X9: a better KPI result never lowers the final score *)

(** X9: replacing the result of one of the seven KPIs by a larger number,
    the other names not being mapped to [None], does not lower the final
    score. *)
Theorem final_performance_monotone
    (kpi_results : gmap string (option Q)) (k : string) (x y : Q) :
  k ∈ kpi_names ->
  (forall k', k' ∈ kpi_names -> k' <> k -> kpi_results !! k' <> Some None) ->
  x <= y ->
  result_le
    (calculate_final_performance (<[k := Some x]> kpi_results))
    (calculate_final_performance (<[k := Some y]> kpi_results)).
Proof.
  intros Hk Hd Hxy.
  rewrite !final_performance_present by now apply results_present_insert.
  unfold result_le. run. now apply final_spec_insert_mono.
Qed.

Lemma final_performance_monotone_witness :
  result_le
    (calculate_final_performance (<["Wastage" := Some 0.25]> ∅))
    (calculate_final_performance (<["Wastage" := Some 0.75]> ∅)).
Proof.
  apply (final_performance_monotone ∅ "Wastage" 0.25 0.75).
  - kpi_name.
  - intros k' _ _. rewrite lookup_empty. discriminate.
  - discriminate.
Defined.

(** ** X10: entries under other names are ignored *)

(** X10: an entry under a name that is not one of the seven KPI names,
    even a [None] one, does not change what the aggregator does. *)
Theorem final_performance_ignores_other_names
    (kpi_results : gmap string (option Q)) (k : string) (v : option Q) :
  k ∉ kpi_names ->
  calculate_final_performance (<[k := v]> kpi_results)
  = calculate_final_performance kpi_results.
Proof.
  intros Hk. unfold calculate_final_performance.
  rewrite !get_insert_ne by (intros ->; apply Hk; kpi_name).
  reflexivity.
Qed.

Lemma final_performance_ignores_other_names_witness :
  calculate_final_performance (<["Footfall" := None]> ∅)
  = calculate_final_performance ∅.
Proof.
  apply (final_performance_ignores_other_names ∅ "Footfall" None).
  intros Hk. apply kpi_names_cases in Hk.
  repeat (destruct Hk as [Hk|Hk]; [discriminate Hk|]). discriminate Hk.
Defined.

(** ** X11: the weights in effect *)



(** * The rows of the table and the final card *)

Lemma unit_interval_proper (v x : Q) :
  v == x -> unit_interval x -> unit_interval v.
Proof. unfold unit_interval. intros ->. tauto. Qed.

Lemma wastage_performance_range (a t : Q) (sales : option Q) :
  returns unit_interval
    (calculate_wastage_performance (Some a) sales (Some t)).
Proof.
  destruct sales as [s|]; [|cbn; unfold unit_interval; lra].
  eapply returns_impl; [|apply wastage_performance_policy].
  intros v Hv. eapply unit_interval_proper; [exact Hv|].
  apply wastage_policy_range.
Qed.

Lemma opex_performance_range (a t : Q) (sales : option Q) :
  returns unit_interval
    (calculate_opex_performance (Some a) (Some t) sales).
Proof.
  destruct sales as [s|]; [|cbn; unfold unit_interval; lra].
  apply returns_try_except.
  eapply returns_impl; [|apply opex_try_policy].
  intros v Hv. eapply unit_interval_proper; [exact Hv|].
  destruct (Qeq_bool s 0); [unfold unit_interval; lra|].
  apply wastage_policy_range.
Qed.

Lemma turnover_performance_range (a t : Q) :
  returns unit_interval
    (calculate_turnover_performance (Some a) (Some t)).
Proof.
  eapply returns_impl; [|apply turnover_performance_spec].
  intros v Hv. eapply unit_interval_proper; [exact Hv|].
  apply turnover_spec_range.
Qed.

Lemma sales_performance_range (a t : Q) :
  0 <= a -> 0 <= t ->
  returns unit_interval (calculate_sales_performance (Some a) (Some t)).
Proof.
  intros Ha Ht. rewrite sales_performance_value. run.
  destruct (Qeq_bool t 0) eqn:E; qprop; [unfold unit_interval; lra|].
  split.
  - apply py_min_nonneg; [lra|]. apply quotient_sign; [assumption|nra].
  - pose proof (py_min_le (a / t) 1.0). lra.
Qed.

Lemma capped_ratio_unit (a d : Q) :
  0 < d -> 0 <= a -> unit_interval (py_min (a / d) 1.0).
Proof.
  intros Hd Ha. destruct (capped_ratio_range a d Hd) as [Hhi Hlo].
  split; [now apply Hlo | exact Hhi].
Qed.

(** The [try] block of a row always returns. *)
Lemma kpi_row_try_returns (kpi_name : string) (t a : Q)
    (sales : option Q) :
  exists v, kpi_row_try kpi_name t a sales = Ret v.
Proof.
  unfold kpi_row_try.
  destruct (String.eqb kpi_name "Sales").
  { rewrite sales_performance_value. eauto. }
  destruct (String.eqb kpi_name "Wastage").
  { assert (Hamount : forall x, exists y,
              (if truthy sales && not_zero sales
               then py_times x sales else Ret 0) = Ret y).
    { intros x. destruct sales as [s|]; cbn [truthy not_zero andb];
        [destruct (negb (Qeq_bool s 0)); cbn; eauto | eauto]. }
    destruct (Hamount a) as [wa ->], (Hamount t) as [ta ->]. run.
    destruct (returns_Ret _ _ (wastage_performance_range wa ta sales))
      as (v & Hv & _).
    eauto. }
  destruct (String.eqb kpi_name "OPEX").
  { destruct (returns_Ret _ _ (opex_performance_range a t sales))
      as (v & Hv & _).
    eauto. }
  destruct (String.eqb kpi_name "Turnover").
  { destruct (returns_Ret _ _ (turnover_performance_range a t))
      as (v & Hv & _).
    eauto. }
  destruct (String.eqb kpi_name "Mystery shopper"); [eexists; reflexivity|].
  destruct (String.eqb kpi_name "Excellence check"); [eexists; reflexivity|].
  destruct (String.eqb kpi_name "Behaviour"); [eexists; reflexivity|].
  cbn [truthy not_zero]. destruct (Qeq_bool t 0) eqn:E; cbn [negb andb].
  - eauto.
  - apply Qeq_bool_false in E. rewrite (truediv_nonzero a t E). eauto.
Qed.

(** The value a row stores for one of the seven KPIs, from non-negative
    inputs. *)
Lemma kpi_row_value_range (kpi_name : string) (t a : Q) (sales : option Q) :
  kpi_name ∈ kpi_names -> 0 <= t -> 0 <= a ->
  unit_interval
    (try_except_Exception (kpi_row_try kpi_name t a sales) 0.0).
Proof.
  assert (Hval : forall r : result Q,
            returns unit_interval r ->
            unit_interval (try_except_Exception r 0.0)).
  { intros [v|e]; cbn; tauto. }
  intros Hk Ht Ha. apply kpi_names_cases in Hk.
  destruct Hk as [->|[->|[->|[->|[->|[->| ->]]]]]]; apply Hval.
  - now apply sales_performance_range.
  - change (kpi_row_try "Wastage" t a sales) with
      (wastage_amount ←
         (if truthy sales && not_zero sales
          then py_times a sales else Ret 0);
       target_amount ←
         (if truthy sales && not_zero sales
          then py_times t sales else Ret 0);
       calculate_wastage_performance
         (Some wastage_amount) sales (Some target_amount)).
    destruct sales as [s|]; cbn [truthy not_zero andb py_times].
    + destruct (negb (Qeq_bool s 0)); run;
        apply wastage_performance_range.
    + run. apply wastage_performance_range.
  - apply opex_performance_range.
  - apply turnover_performance_range.
  - apply (capped_ratio_unit a 100.0); [reflexivity | assumption].
  - apply (capped_ratio_unit a 100.0); [reflexivity | assumption].
  - apply (capped_ratio_unit a 5.0); [reflexivity | assumption].
Qed.

Lemma scores_in_range_empty : scores_in_range ∅.
Proof.
  intros k _. unfold contribution. rewrite lookup_empty.
  split; [discriminate | lra].
Qed.

Lemma scores_in_range_insert (d : gmap string (option Q)) (k : string)
    (v : Q) :
  scores_in_range d ->
  (k ∈ kpi_names -> unit_interval v) ->
  scores_in_range (<[k := Some v]> d).
Proof.
  intros Hd Hv k' Hk'. destruct (decide (k = k')) as [->|Hne].
  - rewrite contribution_insert_eq, lookup_insert_eq.
    split; [discriminate | now apply Hv].
  - rewrite contribution_insert_ne, lookup_insert_ne by assumption.
    now apply Hd.
Qed.

Lemma score_rows_in_range (rows : list row) (sales : option Q)
    (d : gmap string (option Q)) :
  Forall nonnegative_row rows ->
  scores_in_range d ->
  scores_in_range (score_rows rows sales d).
Proof.
  intros Hrows. revert sales d.
  induction Hrows as [|r rows (t & a & Ht & Ha & Ht0 & Ha0) _ IH];
    intros sales d Hd; cbn [score_rows]; [exact Hd|].
  apply IH. rewrite Ht, Ha. cbn [kpi_row].
  apply scores_in_range_insert; [exact Hd|].
  intros Hk. now apply kpi_row_value_range.
Qed.

Lemma score_rows_lookup_other (rows : list row) (sales : option Q)
    (d : gmap string (option Q)) (k : string) :
  k ∉ row_kpi <$> rows -> score_rows rows sales d !! k = d !! k.
Proof.
  revert sales d. induction rows as [|r rows IH]; intros sales d Hk;
    cbn [score_rows]; [reflexivity|].
  rewrite fmap_cons, not_elem_of_cons in Hk. destruct Hk as [Hne Hk].
  rewrite IH by assumption. now apply lookup_insert_ne.
Qed.

Lemma kpi_row_none (kpi_name : string) (t a sales : option Q) :
  t = None \/ a = None -> kpi_row kpi_name t a sales = None.
Proof. intros [-> | ->]; [reflexivity | now destruct t]. Qed.

Lemma score_rows_lookup_none (rows : list row) (sales : option Q)
    (d : gmap string (option Q)) (r : row) :
  NoDup (row_kpi <$> rows) ->
  r ∈ rows ->
  row_target r = None \/ row_actual r = None ->
  score_rows rows sales d !! row_kpi r = Some None.
Proof.
  intros Hnodup Hr Hnone. revert sales d.
  induction rows as [|r0 rows IH]; intros sales d;
    [now apply elem_of_nil in Hr|].
  rewrite fmap_cons in Hnodup. apply NoDup_cons in Hnodup as [Hfresh Hnodup].
  cbn [score_rows]. apply elem_of_cons in Hr as [->|Hr].
  - rewrite score_rows_lookup_other by assumption.
    rewrite lookup_insert_eq. f_equal. now apply kpi_row_none.
  - now apply IH.
Qed.

(** ** X12: the Wastage row and the sign of the sales *)

(** X12: the Wastage row multiplies its two percentages by the Sales
    actual before scoring them.  For a positive Sales actual it stores the
    full score [1.0] whenever actual <= target; for a negative Sales actual
    the products compare the other way round, and it stores [1.0] whenever
    actual >= target. *)
Theorem wastage_row_full_score (target actual sales : Q) :
  (0 < sales -> actual <= target ->
   kpi_row "Wastage" (Some target) (Some actual) (Some sales) = Some 1.0)
  /\ (sales < 0 -> target <= actual ->
      kpi_row "Wastage" (Some target) (Some actual) (Some sales)
      = Some 1.0).
Proof.
  assert (Hrow : ~ sales == 0 -> actual * sales <= target * sales ->
            kpi_row "Wastage" (Some target) (Some actual) (Some sales)
            = Some 1.0).
  { intros Hs Ha. apply Qeq_bool_false in Hs. unfold kpi_row.
    change (kpi_row_try "Wastage" target actual (Some sales)) with
      (wastage_amount ←
         (if truthy (Some sales) && not_zero (Some sales)
          then py_times actual (Some sales) else Ret 0);
       target_amount ←
         (if truthy (Some sales) && not_zero (Some sales)
          then py_times target (Some sales) else Ret 0);
       calculate_wastage_performance
         (Some wastage_amount) (Some sales) (Some target_amount)).
    cbn [truthy not_zero py_times]. rewrite Hs. cbn [negb andb]. run.
    now rewrite (wastage_within_target _ sales _ Ha). }
  split; intros Hs Ha; apply Hrow; try lra; nra.
Qed.

Lemma wastage_row_full_score_witness :
  kpi_row "Wastage" (Some 3) (Some 2) (Some 100000) = Some 1.0
  /\ kpi_row "Wastage" (Some 3) (Some 4) (Some (-100000)) = Some 1.0.
Proof.
  split.
  - destruct (wastage_row_full_score 3 2 100000) as [Hpos _].
    apply Hpos; [reflexivity | discriminate].
  - destruct (wastage_row_full_score 3 4 (-100000)) as [_ Hneg].
    apply Hneg; [reflexivity | discriminate].
Defined.

(** ** X13: rows without sales *)

(** X13: with a Sales actual of zero the Wastage row stores the full score
    [1.0] and the OPEX row stores [0.0], whatever was entered in them; with
    no Sales actual at all both store [0.0]. *)
Theorem rows_without_sales (target actual sales : Q) :
  sales == 0 ->
  kpi_row "Wastage" (Some target) (Some actual) (Some sales) = Some 1.0
  /\ kpi_row "OPEX" (Some target) (Some actual) (Some sales) = Some 0.0
  /\ kpi_row "Wastage" (Some target) (Some actual) None = Some 0.0
  /\ kpi_row "OPEX" (Some target) (Some actual) None = Some 0.0.
Proof.
  intros Hs. apply Qeq_bool_iff in Hs.
  repeat split; try reflexivity.
  - unfold kpi_row.
    change (kpi_row_try "Wastage" target actual (Some sales)) with
      (wastage_amount ←
         (if truthy (Some sales) && not_zero (Some sales)
          then py_times actual (Some sales) else Ret 0);
       target_amount ←
         (if truthy (Some sales) && not_zero (Some sales)
          then py_times target (Some sales) else Ret 0);
       calculate_wastage_performance
         (Some wastage_amount) (Some sales) (Some target_amount)).
    cbn [truthy not_zero]. rewrite Hs. cbn [negb andb]. run.
    unfold calculate_wastage_performance, calculate_wastage_performance_try.
    rewrite Hs. reflexivity.
  - unfold kpi_row.
    change (kpi_row_try "OPEX" target actual (Some sales)) with
      (calculate_opex_performance (Some actual) (Some target) (Some sales)).
    unfold calculate_opex_performance, calculate_opex_performance_try.
    rewrite Hs. reflexivity.
Qed.

Lemma rows_without_sales_witness :
  kpi_row "Wastage" (Some 3) (Some 50) (Some 0) = Some 1.0
  /\ kpi_row "OPEX" (Some 20000) (Some 15000) (Some 0) = Some 0.0.
Proof.
  split.
  - apply (rows_without_sales 3 50 0). reflexivity.
  - apply (rows_without_sales 20000 15000 0). reflexivity.
Defined.

(** ** X14: no row swallows an error *)

(** X14: for every KPI name, known or not, and every pair of numbers
    entered, the [try] block of the row returns a number: the
    [except Exception] handler never runs, so a stored [0.0] is always a
    computed score. *)
Theorem kpi_row_never_raises (kpi_name : string)
    (target_input actual_input : Q) (sales_actual : option Q) :
  exists v,
    kpi_row_try kpi_name target_input actual_input sales_actual = Ret v
    /\ kpi_row kpi_name (Some target_input) (Some actual_input) sales_actual
       = Some v.
Proof.
  destruct (kpi_row_try_returns kpi_name target_input actual_input
              sales_actual) as [v Hv].
  exists v. split; [exact Hv|]. unfold kpi_row. now rewrite Hv.
Qed.

(** ** X15: the final score of a table of non-negative numbers *)

(** X15: when two non-negative numbers are entered in every row, the loop
    over the rows followed by the aggregator returns a final score in
    [[0.0, 1.0]], whatever rows the table has and whatever Sales actual the
    session held before. *)
Theorem final_perf_score_range (rows : list row) (sales_actual : option Q) :
  Forall nonnegative_row rows ->
  returns unit_interval (final_perf_score rows sales_actual).
Proof.
  intros Hrows.
  pose proof (score_rows_in_range rows sales_actual ∅ Hrows
                scores_in_range_empty) as Hd.
  unfold final_perf_score. apply final_performance_bounds.
  - intros k Hk. now apply Hd.
  - intros k Hk. now apply Hd.
Qed.

Lemma final_perf_score_range_witness :
  returns unit_interval
    (final_perf_score
       (kpi_table (Some 100000, Some 90000) (Some 3, Some 3.3)
          (Some 20000, Some 21000) (Some 5, Some 2)
          (Some 100, Some 80) (Some 100, Some 90) (Some 5, Some 4))
       None).
Proof.
  apply final_perf_score_range.
  repeat (apply Forall_cons; split;
          [eexists _, _; repeat split; try reflexivity; discriminate|]).
  apply Forall_nil_2.
Defined.

(** ** X16: an empty input makes the final score fail *)

(** X16: in a table with one row per name, if a row of one of the seven
    KPIs has no target or no actual, the row stores [None] and the
    aggregator raises [TypeError]: no final score is computed. *)
Theorem final_perf_score_empty_input (rows : list row)
    (sales_actual : option Q) (r : row) :
  NoDup (row_kpi <$> rows) ->
  r ∈ rows ->
  row_kpi r ∈ kpi_names ->
  row_target r = None \/ row_actual r = None ->
  final_perf_score rows sales_actual = Raise TypeError.
Proof.
  intros Hnodup Hr Hk Hnone. unfold final_perf_score.
  apply (final_performance_none_entry _ (row_kpi r)).
  - pose proof (kpi_names_cases _ Hk). rewrite !elem_of_cons. tauto.
  - now apply score_rows_lookup_none.
Qed.

Lemma final_perf_score_empty_input_witness :
  final_perf_score
    [Row "Sales" (Some 100000) (Some 90000); Row "Turnover" (Some 5) None]
    None
  = Raise TypeError.
Proof.
  apply (final_perf_score_empty_input _ None (Row "Turnover" (Some 5) None)).
  - cbn. apply NoDup_cons. split.
    + rewrite elem_of_cons, elem_of_nil. intros [H|[]]. discriminate H.
    + apply NoDup_singleton.
  - apply elem_of_cons. right. apply elem_of_cons. now left.
  - kpi_name.
  - now right.
Defined.

(** ** X18: the colour of the final card *)

(** X18: when no KPI name is mapped to [None], the final card is green if
    each of the seven results is at least [0.8], and red if each of them
    (a missing one counting as [0]) is at most some bound below [0.8]. *)
Theorem card_color_of_results (kpi_results : gmap string (option Q)) :
  (forall k, k ∈ kpi_names -> kpi_results !! k <> Some None) ->
  ((forall k, k ∈ kpi_names -> 0.8 <= contribution kpi_results k) ->
   returns (fun v => card_color v = "#e6f7e6")
     (calculate_final_performance kpi_results))
  /\ (forall hi : Q,
        hi < 0.8 ->
        (forall k, k ∈ kpi_names -> contribution kpi_results k <= hi) ->
        returns (fun v => card_color v = "#ffebeb")
          (calculate_final_performance kpi_results)).
Proof.
  intros Hd.
  pose proof (final_performance_present kpi_results Hd) as Hret.
  split.
  - intros Hc. rewrite Hret. run. unfold card_color.
    assert (H : 0.8 <= final_performance_spec kpi_results).
    { unfold final_performance_spec. rewrite aggregate_effective_weights.
      pose proof (Hc "Sales" ltac:(kpi_name)).
      pose proof (Hc "Wastage" ltac:(kpi_name)).
      pose proof (Hc "OPEX" ltac:(kpi_name)).
      pose proof (Hc "Turnover" ltac:(kpi_name)).
      pose proof (Hc "Mystery shopper" ltac:(kpi_name)).
      pose proof (Hc "Excellence check" ltac:(kpi_name)).
      pose proof (Hc "Behaviour" ltac:(kpi_name)).
      lra. }
    apply Qle_bool_iff in H. now rewrite H.
  - intros hi Hhi Hc. rewrite Hret. run. unfold card_color.
    assert (H : final_performance_spec kpi_results < 0.8).
    { unfold final_performance_spec. rewrite aggregate_effective_weights.
      pose proof (Hc "Sales" ltac:(kpi_name)).
      pose proof (Hc "Wastage" ltac:(kpi_name)).
      pose proof (Hc "OPEX" ltac:(kpi_name)).
      pose proof (Hc "Turnover" ltac:(kpi_name)).
      pose proof (Hc "Mystery shopper" ltac:(kpi_name)).
      pose proof (Hc "Excellence check" ltac:(kpi_name)).
      pose proof (Hc "Behaviour" ltac:(kpi_name)).
      lra. }
    apply Qle_bool_false in H. now rewrite H.
Qed.

Lemma card_color_of_results_witness :
  returns (fun v => card_color v = "#e6f7e6")
    (calculate_final_performance
       (kpi_results_of (Some 0.8) (Some 0.8) (Some 0.8) (Some 0.8)
          (Some 0.8) (Some 0.8) (Some 0.8)))
  /\ returns (fun v => card_color v = "#ffebeb")
       (calculate_final_performance
          (kpi_results_of (Some 0.79) (Some 0.79) (Some 0.79) (Some 0.79)
             (Some 0.79) (Some 0.79) (Some 0.79))).
Proof.
  split.
  - destruct (card_color_of_results
                (kpi_results_of (Some 0.8) (Some 0.8) (Some 0.8) (Some 0.8)
                   (Some 0.8) (Some 0.8) (Some 0.8))) as [Hgreen _].
    + intros k Hk. apply kpi_names_cases in Hk.
      repeat (destruct Hk as [->|Hk]; [vm_compute; discriminate|]).
      subst k. vm_compute. discriminate.
    + apply Hgreen. intros k Hk. apply kpi_names_cases in Hk.
      repeat (destruct Hk as [->|Hk]; [vm_compute; discriminate|]).
      subst k. vm_compute. discriminate.
  - destruct (card_color_of_results
                (kpi_results_of (Some 0.79) (Some 0.79) (Some 0.79)
                   (Some 0.79) (Some 0.79) (Some 0.79) (Some 0.79)))
      as [_ Hred].
    + intros k Hk. apply kpi_names_cases in Hk.
      repeat (destruct Hk as [->|Hk]; [vm_compute; discriminate|]).
      subst k. vm_compute. discriminate.
    + apply (Hred 0.79); [reflexivity|].
      intros k Hk. apply kpi_names_cases in Hk.
      repeat (destruct Hk as [->|Hk]; [vm_compute; discriminate|]).
      subst k. vm_compute. discriminate.
Defined.
